(** * ROSE (Reflectivity Open Science Engine): the command-line greeting
      tool and the package stub, with the fitting-core design of the
      specification.

    Python [str] values are modelled as [string] (the UTF-8 bytes of the
    text), process exit codes as [Z], and the standard output stream as
    the text written to it so far, together with its encoding and
    whether it is a terminal. *)

From Stdlib Require Import ZArith Lia Bool Ascii String.
From stdpp Require Import base option list strings gmap.

Local Open Scope Z_scope.

(** ** package_name/cli.py *)

Module Cli.

(** The line terminator [click.echo] appends, and the newline that
    opens the second message of [main]. *)
Definition nl : string := String (ascii_of_nat 10) EmptyString.

(** U+1F44B (waving hand) as the four bytes of its UTF-8 encoding. *)
Definition wave : string :=
  String (ascii_of_nat 240) (String (ascii_of_nat 159)
    (String (ascii_of_nat 145) (String (ascii_of_nat 139) EmptyString))).

(** *** Text streams

    A Python [str] is held as the bytes of its UTF-8 encoding, a lone
    surrogate as the three bytes [surrogatepass] gives it (ED A0..BF
    80..BF). The ASCII characters the code below looks for are single
    bytes that occur nowhere inside a longer sequence, so searching
    the bytes is searching the characters. *)

Definition code (c : ascii) : N := N_of_ascii c.

Definition in_range (lo hi : N) (c : ascii) : bool :=
  ((lo <=? code c) && (code c <=? hi))%N.

(** The encodings a standard stream is opened with here; every write
    is checked with [errors="strict"]. *)
Inductive encoding := Utf8 | Latin1 | Ascii7.

(** Where a decoder stands inside a multi-byte sequence: at a
    character boundary, before one, two or three continuation bytes,
    or just after a lead byte that narrows the next byte. *)
Inductive decoder :=
| Boundary
| Tail1
| Tail2
| Tail3
| AfterE0
| AfterED
| AfterF0
| AfterF4.

(** The lead bytes of the characters an encoding can encode: all of
    Unicode but the surrogates for UTF-8, U+0000..U+00FF for Latin-1,
    U+0000..U+007F for ASCII. *)
Definition lead (enc : encoding) (c : ascii) : option decoder :=
  if in_range 0 127 c then Some Boundary
  else
    match enc with
    | Ascii7 => None
    | Latin1 => if in_range 194 195 c then Some Tail1 else None
    | Utf8 =>
        if in_range 194 223 c then Some Tail1
        else if in_range 224 224 c then Some AfterE0
        else if in_range 225 236 c then Some Tail2
        else if in_range 237 237 c then Some AfterED
        else if in_range 238 239 c then Some Tail2
        else if in_range 240 240 c then Some AfterF0
        else if in_range 241 243 c then Some Tail3
        else if in_range 244 244 c then Some AfterF4
        else None
    end.

Definition next (lo hi : N) (then_ : decoder) (c : ascii) : option decoder :=
  if in_range lo hi c then Some then_ else None.

Definition decode_step (enc : encoding) (d : decoder) (c : ascii)
  : option decoder :=
  match d with
  | Boundary => lead enc c
  | Tail1 => next 128 191 Boundary c
  | Tail2 => next 128 191 Tail1 c
  | Tail3 => next 128 191 Tail2 c
  | AfterE0 => next 160 191 Tail1 c
  | AfterED => next 128 159 Tail1 c
  | AfterF0 => next 144 191 Tail2 c
  | AfterF4 => next 128 143 Tail2 c
  end.

Fixpoint scan (enc : encoding) (d : decoder) (s : string) : option decoder :=
  match s with
  | EmptyString => Some d
  | String c rest =>
      match decode_step enc d c with
      | Some d' => scan enc d' rest
      | None => None
      end
  end.

(** Whether [s.encode(enc)] succeeds. *)
Definition encodable (enc : encoding) (s : string) : bool :=
  match scan enc Boundary s with
  | Some Boundary => true
  | _ => false
  end.

(** *** ANSI escape sequences

    Click's [strip_ansi] deletes every match of
    [\033\[[;?0-9]*[a-zA-Z]], scanning from the left. *)

Definition esc : ascii := ascii_of_nat 27.

Definition is_esc (c : ascii) : bool := Ascii.eqb c esc.

Definition is_bracket (c : ascii) : bool := Ascii.eqb c "[".

(** [[;?0-9]] *)
Definition is_csi_param (c : ascii) : bool :=
  in_range 48 57 c || Ascii.eqb c ";" || Ascii.eqb c "?".

(** [[a-zA-Z]] *)
Definition is_letter (c : ascii) : bool :=
  in_range 97 122 c || in_range 65 90 c.

(** How much of a sequence has been read: nothing, the escape
    character, or the escape, the bracket and some parameters. *)
Inductive matcher :=
| Outside
| Escape
| Csi (params : string).

(** The characters read so far, to be kept if the match fails. *)
Definition held (m : matcher) : string :=
  match m with
  | Outside => EmptyString
  | Escape => String esc EmptyString
  | Csi params => String esc (String "[" params)
  end.

(** One character outside any sequence. *)
Definition plain_step (c : ascii) : string * matcher :=
  if is_esc c then (EmptyString, Escape)
  else (String c EmptyString, Outside).

(** One character: what is kept, and where the match stands. A
    character that cannot continue the sequence releases what was
    held and is read afresh. *)
Definition strip_step (m : matcher) (c : ascii) : string * matcher :=
  match m with
  | Outside => plain_step c
  | Escape =>
      if is_bracket c then (EmptyString, Csi EmptyString)
      else (held m +:+ fst (plain_step c), snd (plain_step c))
  | Csi params =>
      if is_csi_param c then (EmptyString, Csi (params +:+ String c EmptyString))
      else if is_letter c then (EmptyString, Outside)
      else (held m +:+ fst (plain_step c), snd (plain_step c))
  end.

Fixpoint strip_from (m : matcher) (s : string) : string :=
  match s with
  | EmptyString => held m
  | String c rest =>
      fst (strip_step m c) +:+ strip_from (snd (strip_step m c)) rest
  end.

Definition strip_ansi (value : string) : string := strip_from Outside value.

(** *** The world of a run *)

(** What a run of the command can observe and change: the text
    written to stdout so far, whether stdout is a terminal and how it
    encodes, the error stream and the process environment. *)
Record World := mkWorld {
  stdout : string;
  stdout_isatty : bool;
  stdout_encoding : encoding;
  stderr : string;
  environ : list (string * string)
}.

Definition with_stdout (w : World) (text : string) : World :=
  mkWorld text (stdout_isatty w) (stdout_encoding w) (stderr w) (environ w).

(** The exceptions a run can raise. *)
Inductive exn := UnicodeEncodeError.

(** Commands are state transformers over the world that return a value
    or raise. *)
Definition IO (A : Type) : Type := World -> (exn + A) * World.

Definition ret {A} (a : A) : IO A := fun w => (inr a, w).

Definition bind {A B} (m : IO A) (k : A -> IO B) : IO B :=
  fun w =>
    let '(r, w') := m w in
    match r with
    | inr a => k a w'
    | inl e => (inl e, w')
    end.

Declare Scope io_scope.
Delimit Scope io_scope with io.
Notation "m ;; k" := (bind m (fun _ => k))
  (at level 100, k at level 200, right associativity) : io_scope.

(** Click's [should_strip_ansi] with no colour setting: strip unless
    the stream is a terminal (the test runner, whose stream is no
    terminal, strips as well). The colour wrapping of Windows consoles
    and the Jupyter streams are left out. *)
Definition should_strip_ansi (w : World) : bool := negb (stdout_isatty w).

(** [click.echo(message)]: the message and a newline, with the ANSI
    sequences stripped when stdout is not a terminal, written to
    stdout; a text the stream cannot encode raises and writes
    nothing. *)
Definition echo (message : string) : IO unit :=
  fun w =>
    let out := message +:+ nl in
    let out := if should_strip_ansi w then strip_ansi out else out in
    if encodable (stdout_encoding w) out
    then (inr tt, with_stdout w (stdout w +:+ out))
    else (inl UnicodeEncodeError, w).

(** The f-string on line 29. *)
Definition greeting (name : string) : string :=
  "Hello, " +:+ name +:+ "! " +:+ wave.

Definition template_notice : string :=
  nl +:+ "This is a template CLI. Replace it with your own commands!".

Definition tip : string :=
  "Tip: Ask Copilot to help you add functionality here.".

(** The body of [main] (lines 29-31). *)
Definition main (name : string) : IO unit :=
  (echo (greeting name) ;;
   echo template_notice ;;
   echo tip)%io.

(** The parameters Click hands to the callback: [--name] is the only
    option that reaches it ([--version] and [--help] leave before the
    callback runs). [None] stands for an invocation without the
    option. *)
Record Params := mkParams { opt_name : option string }.

(** [@click.option("--name", default="AI")]. *)
Definition default_name : string := "AI".

(** [@click.command()] around [main]: fill in the default, run the
    callback, and leave with exit code 0 when it returns; an
    exception of the callback passes through. *)
Definition command (p : Params) : IO Z :=
  (main (default default_name (opt_name p)) ;; ret 0)%io.

(** The exit code of the process: the command's own, or 1 when an
    exception escapes it. *)
Definition exit_status (r : exn + Z) : Z :=
  match r with
  | inr code => code
  | inl _ => 1
  end.

Definition is_cr (c : ascii) : bool := Ascii.eqb c (ascii_of_nat 13).

Definition is_lf (c : ascii) : bool := Ascii.eqb c (ascii_of_nat 10).

(** Python's [s.replace("\r\n", "\n")]. *)
Fixpoint replace_crlf (s : string) : string :=
  match s with
  | EmptyString => EmptyString
  | String c rest =>
      match rest with
      | String d rest' =>
          if is_cr c && is_lf d then String d (replace_crlf rest')
          else String c (replace_crlf rest)
      | EmptyString => String c EmptyString
      end
  end.

(** [click.testing.Result], restricted to what the tests read. *)
Record Result := mkResult { exit_code : Z; output : string }.

(** The streams [CliRunner] runs a command on: empty, UTF-8, not a
    terminal. *)
Definition fresh_world : World := mkWorld "" false Utf8 "" [].

(** [CliRunner().invoke(main, args)]: run on fresh streams; the exit
    code is 1 when the callback raised, and the output is what was
    written, with every CRLF read back as LF. *)
Definition invoke (p : Params) : Result :=
  let '(r, w) := command p fresh_world in
  mkResult (exit_status r) (replace_crlf (stdout w)).

(** Python's [needle in haystack] on [str]. *)
Fixpoint contains (needle haystack : string) : bool :=
  String.prefix needle haystack ||
  match haystack with
  | EmptyString => false
  | String _ rest => contains needle rest
  end.

(** The text up to the first newline. *)
Fixpoint first_line (s : string) : string :=
  match s with
  | EmptyString => EmptyString
  | String c rest =>
      if Ascii.eqb c (ascii_of_nat 10) then EmptyString
      else String c (first_line rest)
  end.

End Cli.

(** ** rose/__init__.py *)

Module Rose.

(** The Python values the module body builds. *)
#[warnings="-register-all"] Inductive value :=
| VStr (s : string)
| VList (items : list value)
| VFunction (qualname : string)
| VClass (qualname : string).

(** The statement forms a package [__init__] can hold. *)
Inductive stmt :=
| Docstring (text : string)
| Assign (target : string) (v : value)
| FunctionDef (fname : string)
| ClassDef (cname : string).

(** The module docstring (lines 1-9). *)
Definition docstring : string :=
  "
ROSE — Reflectivity Open Science Engine.

Automated neutron reflectivity analysis tool (AuRE v2). This package
provides algorithms and pipelines for fitting thin-film reflectivity
models to experimental neutron scattering data.

See https://github.com/neutrons-ai/rose for more information.
".

(** The module body, statement by statement (lines 1-12). *)
Definition body : list stmt :=
  [ Docstring docstring;
    Assign "__version__" (VStr "0.1.0");
    Assign "__all__" (VList [VStr "__version__"]) ].

(** Executing one statement in the module namespace (a dict). *)
Definition exec (ns : gmap string value) (st : stmt) : gmap string value :=
  match st with
  | Docstring text => <["__doc__" := VStr text]> ns
  | Assign target v => <[target := v]> ns
  | FunctionDef fname => <[fname := VFunction fname]> ns
  | ClassDef cname => <[cname := VClass cname]> ns
  end.

(** The namespace after import. *)
Definition namespace : gmap string value := foldl exec ∅ body.

Definition __version__ : option value := namespace !! "__version__".

Definition as_str (v : value) : option string :=
  match v with VStr s => Some s | _ => None end.

(** The export list: the strings of [__all__]. *)
Definition __all__ : option (list string) :=
  match namespace !! "__all__" with
  | Some (VList items) => mapM as_str items
  | _ => None
  end.

(** Targets of the assignment statements, in order. *)
Definition assigned (b : list stmt) : list string :=
  omap (fun st => match st with Assign t _ => Some t | _ => None end) b.

(** Names of the functions and classes the body defines. *)
Definition defined_code (b : list stmt) : list string :=
  omap (fun st => match st with
                  | FunctionDef n | ClassDef n => Some n
                  | _ => None
                  end) b.

(** The constants of the module: what it assigns, the export list
    itself apart. *)
Definition constants (b : list stmt) : list string :=
  List.filter (fun t => negb (String.eqb t "__all__")) (assigned b).

End Rose.

(** ** Fit Session (specification section 4.6) *)

Module FitSession.
Section Machine.

(** Payloads the session carries but never inspects. *)
Variables Dataset Stack FitResult Failure : Type.

(** Modelled from the spec: the repository has no Fit Session code;
    these are the tagged states of [Created -> DataLoaded ->
    ModelConfigured -> Fitting -> Completed|Failed], where [Completed]
    carries the FitResult and [Failed] the triggering error. *)
Inductive phase :=
| Created
| DataLoaded
| ModelConfigured
| Fitting
| Completed (result : FitResult)
| Failed (cause : Failure).

(** Modelled from the spec: a session is its tagged state together
    with the Dataset and the initial Stack it has been given so far. *)
Record Session := mkSession {
  state : phase;
  dataset : option Dataset;
  initial_stack : option Stack
}.

(** Modelled from the spec: the requests that drive the session along
    the arrows of the state machine. *)
Inductive request :=
| LoadData (d : Dataset)
| ConfigureModel (s : Stack)
| StartFit
| Finish (r : FitResult)
| Abort (e : Failure).

(** Modelled from the spec: disallowed transitions are rejected at the
    API boundary; a request is turned down either because no arrow of
    the machine allows it or because its precondition is unmet. *)
Inductive rejection :=
| TransitionNotAllowed
| PreconditionUnmet.

(** Modelled from the spec: a session starts in [Created], with no
    Dataset and no Stack yet. *)
Definition new_session : Session := mkSession Created None None.

(** Modelled from the spec: each transition follows one arrow of the
    machine and validates its precondition; entering [Fitting] needs
    both the Dataset and the initial Stack; every other request is a
    disallowed transition. *)
Definition transition (s : Session) (r : request) : rejection + Session :=
  match state s, r with
  | Created, LoadData d =>
      inr (mkSession DataLoaded (Some d) (initial_stack s))
  | DataLoaded, ConfigureModel k =>
      inr (mkSession ModelConfigured (dataset s) (Some k))
  | ModelConfigured, StartFit =>
      match dataset s, initial_stack s with
      | Some _, Some _ => inr (mkSession Fitting (dataset s) (initial_stack s))
      | _, _ => inl PreconditionUnmet
      end
  | Fitting, Finish res =>
      inr (mkSession (Completed res) (dataset s) (initial_stack s))
  | Fitting, Abort e =>
      inr (mkSession (Failed e) (dataset s) (initial_stack s))
  | _, _ => inl TransitionNotAllowed
  end.

(** Modelled from the spec: the reachable sessions are those obtained
    from a new one by accepted requests. *)
Inductive reachable : Session -> Prop :=
| reach_new : reachable new_session
| reach_step s r s' :
    reachable s -> transition s r = inr s' -> reachable s'.

(** Running a list of requests, stopping at the first rejection. *)
Fixpoint run (s : Session) (rs : list request) : rejection + Session :=
  match rs with
  | [] => inr s
  | r :: rs' =>
      match transition s r with
      | inr s' => run s' rs'
      | inl e => inl e
      end
  end.

Definition is_fitting (s : Session) : bool :=
  match state s with Fitting => true | _ => false end.

Definition is_failed (s : Session) : bool :=
  match state s with Failed _ => true | _ => false end.

End Machine.

Arguments Created {FitResult Failure}.
Arguments DataLoaded {FitResult Failure}.
Arguments ModelConfigured {FitResult Failure}.
Arguments Fitting {FitResult Failure}.
Arguments Completed {FitResult Failure} result.
Arguments Failed {FitResult Failure} cause.
Arguments mkSession {Dataset Stack FitResult Failure}.
Arguments state {Dataset Stack FitResult Failure}.
Arguments dataset {Dataset Stack FitResult Failure}.
Arguments initial_stack {Dataset Stack FitResult Failure}.
Arguments LoadData {Dataset Stack FitResult Failure} d.
Arguments ConfigureModel {Dataset Stack FitResult Failure} s.
Arguments StartFit {Dataset Stack FitResult Failure}.
Arguments Finish {Dataset Stack FitResult Failure} r.
Arguments Abort {Dataset Stack FitResult Failure} e.
Arguments new_session {Dataset Stack FitResult Failure}.
Arguments transition {Dataset Stack FitResult Failure} s r.
Arguments reachable {Dataset Stack FitResult Failure} _.
Arguments run {Dataset Stack FitResult Failure} s rs.
Arguments is_fitting {Dataset Stack FitResult Failure} s.
Arguments is_failed {Dataset Stack FitResult Failure} s.

End FitSession.

(** ** Parameter Space Manager (specification sections 3 and 4.3) *)

Module ParamSpace.

(** Modelled from the spec: the Layer attributes a Parameter can be
    bound to (thickness, the two components of the scattering length
    density, roughness). *)
Inductive attribute := Thickness | SldReal | SldImag | Roughness.

(** Modelled from the spec: [OutOfBoundsError] is the rejection of a
    value outside its bounds; the other two report a vector of the
    wrong length and a tie that does not resolve. *)
Inductive error :=
| OutOfBoundsError
| LengthMismatch
| UnresolvedTie.

Inductive result (A : Type) :=
| Ok (a : A)
| Err (e : error).
Arguments Ok {A} a.
Arguments Err {A} e.

Section Manager.

(** The scalars of the model (floating-point numbers in the design)
    and their comparison [x <= y]. Nothing below computes with them:
    they are compared against bounds and copied. *)
Variable scalar : Type.
Variable leb : scalar -> scalar -> bool.

(** Modelled from the spec: the repository has no data-model code; a
    Layer has a thickness, a scattering length density with a real and
    an imaginary component, and an interfacial roughness. *)
Record Layer := mkLayer {
  thickness : scalar;
  sld_real : scalar;
  sld_imag : scalar;
  roughness : scalar
}.

(** Modelled from the spec: a Stack is the ordered sequence of Layers
    from the incident medium to the substrate. *)
Definition Stack : Type := list Layer.

(** Modelled from the spec: a Parameter is a named scalar bound to one
    Layer attribute, with a value, a lower and an upper bound, a
    free/fixed flag and an optional link to the Parameter it is tied
    to. *)
Record Param := mkParam {
  name : string;
  layer : nat;
  attr : attribute;
  value : scalar;
  lower : scalar;
  upper : scalar;
  free : bool;
  tie : option string
}.

(** Modelled from the spec: the Parameter Space Manager owns the
    Parameters; the Stack is a view derived from them, rebuilt over
    the layers of the configuration. *)
Record Manager := mkManager {
  layers : Stack;
  parameters : list Param
}.

Definition set_attr (a : attribute) (x : scalar) (l : Layer) : Layer :=
  match a with
  | Thickness => mkLayer x (sld_real l) (sld_imag l) (roughness l)
  | SldReal => mkLayer (thickness l) x (sld_imag l) (roughness l)
  | SldImag => mkLayer (thickness l) (sld_real l) x (roughness l)
  | Roughness => mkLayer (thickness l) (sld_real l) (sld_imag l) x
  end.

Definition with_value (p : Param) (x : scalar) : Param :=
  mkParam (name p) (layer p) (attr p) x (lower p) (upper p)
              (free p) (tie p).

(** Modelled from the spec: the bounds check [lower <= x <= upper]. *)
Definition in_bounds (p : Param) (x : scalar) : bool :=
  leb (lower p) x && leb x (upper p).

(** Modelled from the spec: [to_vector()] is the values of the free
    parameters only, in parameter order. *)
Definition to_vector (m : Manager) : list scalar :=
  value <$> List.filter free (parameters m).

(** Modelled from the spec: the free parameters take the entries of
    the vector in order, the fixed ones keep their values; an entry
    outside [lower, upper] is rejected with [OutOfBoundsError]. *)
Fixpoint assign (ps : list Param) (vec : list scalar)
  : result (list Param) :=
  match ps with
  | [] =>
      match vec with
      | [] => Ok []
      | _ :: _ => Err LengthMismatch
      end
  | p :: ps' =>
      if free p then
        match vec with
        | [] => Err LengthMismatch
        | x :: vec' =>
            if in_bounds p x then
              match assign ps' vec' with
              | Ok qs => Ok (with_value p x :: qs)
              | Err e => Err e
              end
            else Err OutOfBoundsError
        end
      else
        match assign ps' vec with
        | Ok qs => Ok (p :: qs)
        | Err e => Err e
        end
  end.

(** The Parameters by name. *)
Definition by_name (ps : list Param) : gmap string Param :=
  list_to_map ((fun p => (name p, p)) <$> ps).

(** Modelled from the spec: a tied Parameter takes the value of the
    Parameter it is linked to, along the chain of links; the fuel
    bounds the chain by the number of Parameters, so a cycle or a
    dangling link gives no value. *)
Fixpoint resolve (env : gmap string Param) (fuel : nat)
         (p : Param) : option scalar :=
  match tie p with
  | None => Some (value p)
  | Some target =>
      match fuel with
      | O => None
      | S fuel' =>
          match env !! target with
          | Some q => resolve env fuel' q
          | None => None
          end
      end
  end.

(** Modelled from the spec: writing one resolved Parameter into the
    attribute of the Layer it is bound to; a Layer index outside the
    Stack writes nothing. *)
Definition write (env : gmap string Param) (fuel : nat)
           (acc : result Stack) (p : Param) : result Stack :=
  match acc with
  | Err e => Err e
  | Ok st =>
      match resolve env fuel p with
      | Some x => Ok (alter (set_attr (attr p) x) (layer p) st)
      | None => Err UnresolvedTie
      end
  end.

(** Modelled from the spec: rebuilding the full Stack from the
    Parameters, fixed values substituted and ties resolved. *)
Definition rebuild (base : Stack) (ps : list Param) : result Stack :=
  foldl (write (by_name ps) (length ps)) (Ok base) ps.

(** The Stack of a manager: the view derived from its Parameters. *)
Definition stack (m : Manager) : result Stack :=
  rebuild (layers m) (parameters m).

(** Modelled from the spec: [from_vector(vector)] rebuilds the full
    Stack from a vector of free-parameter values. *)
Definition from_vector (m : Manager) (vec : list scalar) : result Stack :=
  match assign (parameters m) vec with
  | Ok ps => rebuild (layers m) ps
  | Err e => Err e
  end.

Definition ties_resolve (ps : list Param) : bool :=
  forallb (fun p => bool_decide (is_Some (resolve (by_name ps) (length ps) p))) ps.

Definition bounds_respected (ps : list Param) : bool :=
  forallb (fun p => implb (free p) (in_bounds p (value p))) ps.

(** Modelled from the spec: a configuration is valid when every free
    Parameter lies within its bounds and every tie resolves. *)
Definition valid (m : Manager) : bool :=
  bounds_respected (parameters m) && ties_resolve (parameters m).

End Manager.

Arguments mkLayer {scalar}.
Arguments thickness {scalar}.
Arguments sld_real {scalar}.
Arguments sld_imag {scalar}.
Arguments roughness {scalar}.
Arguments mkParam {scalar}.
Arguments name {scalar}.
Arguments layer {scalar}.
Arguments attr {scalar}.
Arguments value {scalar}.
Arguments lower {scalar}.
Arguments upper {scalar}.
Arguments free {scalar}.
Arguments tie {scalar}.
Arguments mkManager {scalar}.
Arguments layers {scalar}.
Arguments parameters {scalar}.
Arguments set_attr {scalar}.
Arguments with_value {scalar}.
Arguments in_bounds {scalar}.
Arguments to_vector {scalar}.
Arguments assign {scalar}.
Arguments by_name {scalar}.
Arguments resolve {scalar}.
Arguments write {scalar}.
Arguments rebuild {scalar}.
Arguments stack {scalar}.
Arguments from_vector {scalar}.
Arguments ties_resolve {scalar}.
Arguments bounds_respected {scalar}.
Arguments valid {scalar}.

(** A three-layer film on integer scalars: air, a film whose
    thickness is free and whose roughness is tied to the substrate's,
    and the substrate. *)
Definition demo : Manager Z :=
  mkManager
    [ mkLayer 0 0 0 0; mkLayer 100 4 0 3; mkLayer 0 2 0 5 ]
    [ mkParam "film.thickness" 1 Thickness 120 50 200 true None;
      mkParam "film.sld" 1 SldReal 6 0 10 true None;
      mkParam "substrate.roughness" 2 Roughness 7 0 20 false None;
      mkParam "film.roughness" 1 Roughness 0 0 20 false
                  (Some "substrate.roughness") ].

End ParamSpace.

(** ** Reading the output of the command-line tool *)

Module CliText.

(** Whether a text holds a newline character. *)
Fixpoint has_newline (s : string) : bool :=
  match s with
  | EmptyString => false
  | String c rest => Ascii.eqb c (ascii_of_nat 10) || has_newline rest
  end.

(** Python's [s.split("\n")]: the pieces between newlines, the empty
    piece after a final newline included. *)
Fixpoint split_lines (s : string) : list string :=
  match s with
  | EmptyString => [EmptyString]
  | String c rest =>
      if Ascii.eqb c (ascii_of_nat 10) then EmptyString :: split_lines rest
      else
        match split_lines rest with
        | l :: ls => String c l :: ls
        | [] => [String c EmptyString]
        end
  end.

(** The name the callback receives: the option, or its default. *)
Definition effective_name (p : Cli.Params) : string :=
  default Cli.default_name (Cli.opt_name p).

(** The name as [click.echo] lets it through to stdout: as it is on a
    terminal, with its ANSI sequences stripped elsewhere. *)
Definition shown (w : Cli.World) (name : string) : string :=
  if Cli.should_strip_ansi w then Cli.strip_ansi name else name.

(** A character that neither opens nor continues an ANSI sequence. *)
Definition inert (c : ascii) : Prop :=
  Cli.is_esc c = false /\ Cli.is_bracket c = false /\
  Cli.is_csi_param c = false /\ Cli.is_letter c = false.

(** The text of a successful run for a name as shown. *)
Definition three_lines (name : string) : string :=
  Cli.greeting name +:+ Cli.nl +:+ Cli.template_notice +:+ Cli.nl
    +:+ Cli.tip +:+ Cli.nl.

(** A name with colour codes around [red]. *)
Definition red_name : string :=
  String Cli.esc "[31mred" +:+ String Cli.esc "[0m".

(** U+DCFF, a lone surrogate, as [surrogatepass] encodes it. *)
Definition lone_surrogate : string :=
  String (ascii_of_nat 237) (String (ascii_of_nat 179)
    (String (ascii_of_nat 191) EmptyString)).

(** A terminal with earlier output on it, and a Latin-1 pipe. *)
Definition terminal : Cli.World :=
  Cli.mkWorld "$ " true Cli.Utf8 "" [("LANG", "C.UTF-8")].


End CliText.

(** * Properties *)

(** ** The command-line tool *)

Section CliFacts.
Import Cli CliText.

Lemma append_nil (s : string) : "" +:+ s = s.
Proof. reflexivity. Qed.

Lemma append_cons (c : ascii) (s t : string) :
  String c s +:+ t = String c (s +:+ t).
Proof. reflexivity. Qed.

Lemma append_assoc (a b c : string) : (a +:+ b) +:+ c = a +:+ b +:+ c.
Proof.
  induction a as [|x a IH].
  - reflexivity.
  - now rewrite !append_cons, IH.
Qed.

Lemma prefix_empty (s : string) : String.prefix "" s = true.
Proof. now destruct s. Qed.

Lemma prefix_append (s t : string) : String.prefix s (s +:+ t) = true.
Proof.
  induction s as [|x s IH].
  - apply prefix_empty.
  - rewrite append_cons. simpl.
    destruct (ascii_dec x x) as [_|ne]; [exact IH | now destruct ne].
Qed.

Lemma prefix_weaken (n h rest : string) :
  String.prefix n h = true -> String.prefix n (h +:+ rest) = true.
Proof.
  revert h. induction n as [|y n IH]; intros h H.
  - apply prefix_empty.
  - destruct h as [|x h]; [discriminate|].
    rewrite append_cons. simpl in *.
    destruct (ascii_dec y x); [now apply IH | discriminate].
Qed.

Lemma contains_prefix (n h : string) :
  String.prefix n h = true -> contains n h = true.
Proof. intros H. destruct h; simpl in *; now rewrite H. Qed.

(** What is found in a text is found after any text put before it. *)
Lemma contains_after (n before h : string) :
  contains n h = true -> contains n (before +:+ h) = true.
Proof.
  intros H. induction before as [|x before IH].
  - exact H.
  - rewrite append_cons. simpl. rewrite IH. apply orb_true_r.
Qed.

(** ... and before any text put after it. *)
Lemma contains_before (n h rest : string) :
  contains n h = true -> contains n (h +:+ rest) = true.
Proof.
  induction h as [|x h IH]; intros H.
  - apply contains_prefix.
    simpl in H. rewrite orb_false_r in H.
    now apply (prefix_weaken n "" rest).
  - simpl in H. apply orb_true_iff in H as [H|H].
    + apply contains_prefix. now apply prefix_weaken.
    + rewrite append_cons. simpl. rewrite (IH H). apply orb_true_r.
Qed.

Lemma greeting_contains_hello (name : string) :
  contains ("Hello, " +:+ name +:+ "!") (greeting name) = true.
Proof.
  apply contains_prefix. unfold greeting.
  replace ("Hello, " +:+ name +:+ "! " +:+ wave)
    with (("Hello, " +:+ name +:+ "!") +:+ " " +:+ wave).
  - apply prefix_append.
  - now rewrite !append_assoc.
Qed.

(** *** Encoding *)

Lemma scan_append enc (a b : string) :
  forall d,
    scan enc d (a +:+ b) =
      match scan enc d a with
      | Some d' => scan enc d' b
      | None => None
      end.
Proof.
  induction a as [|c a IH]; intros d; [reflexivity|].
  rewrite append_cons. simpl.
  destruct (decode_step enc d c); [apply IH | reflexivity].
Qed.

(** The text after the name ends a character and can only follow a
    complete one; UTF-8 alone encodes its waving hand. *)
Lemma scan_after_name enc (d : decoder) :
  scan enc d ("! " +:+ wave +:+ nl) =
    match enc, d with
    | Utf8, Boundary => Some Boundary
    | _, _ => None
    end.
Proof. destruct enc, d; reflexivity. Qed.

Lemma encodable_greeting enc (x : string) :
  encodable enc (greeting x +:+ nl) =
    match enc with
    | Utf8 => encodable Utf8 x
    | _ => false
    end.
Proof.
  unfold encodable, greeting. rewrite !append_assoc.
  change (scan enc Boundary ("Hello, " +:+ x +:+ "! " +:+ wave +:+ nl))
    with (scan enc Boundary (x +:+ "! " +:+ wave +:+ nl)).
  rewrite scan_append.
  destruct enc; (destruct (scan _ Boundary x) as [d|]; [|reflexivity]);
    rewrite scan_after_name; now destruct d.
Qed.

(** *** Stripping *)

Lemma strip_step_inert (c : ascii) (m : matcher) :
  inert c -> strip_step m c = (held m +:+ String c "", Outside).
Proof.
  intros (He & Hb & Hp & Hl).
  destruct m; unfold strip_step, plain_step; rewrite ?He, ?Hb, ?Hp, ?Hl;
    reflexivity.
Qed.

(** Stripping reads a text up to an inert character on its own: what
    follows takes no part in any sequence begun before it. *)
Lemma strip_from_before_inert (c : ascii) (t : string) :
  inert c -> strip_ansi t = t ->
  forall (x : string) (m : matcher),
    strip_from m (x +:+ String c t) = strip_from m x +:+ String c t.
Proof.
  intros Hc Ht. induction x as [|y x IH]; intros m.
  - rewrite append_nil. simpl. rewrite (strip_step_inert c m Hc). simpl.
    fold (strip_ansi t). rewrite Ht. now rewrite append_assoc.
  - rewrite append_cons. simpl. rewrite IH. now rewrite append_assoc.
Qed.

Lemma strip_greeting (x : string) :
  strip_ansi (greeting x +:+ nl) = greeting (strip_ansi x) +:+ nl.
Proof.
  unfold greeting. rewrite !append_assoc.
  change (strip_ansi ("Hello, " +:+ x +:+ "! " +:+ wave +:+ nl))
    with ("Hello, " +:+ strip_from Outside (x +:+ String "!" (" " +:+ wave +:+ nl))).
  rewrite strip_from_before_inert; [reflexivity | | reflexivity].
  repeat split.
Qed.

(** *** Running [main] *)

Lemma echo_greeting (name : string) (w : World) :
  echo (greeting name) w =
    if encodable (stdout_encoding w) (greeting (shown w name) +:+ nl)
    then (inr tt, with_stdout w (stdout w +:+ greeting (shown w name) +:+ nl))
    else (inl UnicodeEncodeError, w).
Proof.
  unfold echo, shown.
  destruct (should_strip_ansi w); [rewrite strip_greeting|]; reflexivity.
Qed.

(** The two fixed messages are ASCII without escapes: every stream
    takes them as they are. *)
Lemma echo_template_notice (w : World) :
  echo template_notice w =
    (inr tt, with_stdout w (stdout w +:+ template_notice +:+ nl)).
Proof.
  unfold echo. destruct (should_strip_ansi w), (stdout_encoding w);
    reflexivity.
Qed.

Lemma echo_tip (w : World) :
  echo tip w = (inr tt, with_stdout w (stdout w +:+ tip +:+ nl)).
Proof.
  unfold echo. destruct (should_strip_ansi w), (stdout_encoding w);
    reflexivity.
Qed.

(** A run of [main] stands or falls with its first echo: either the
    three messages are appended, the name as the stream shows it, or
    nothing is written and the encoding error is raised. *)
Lemma main_run (name : string) (w : World) :
  main name w =
    if encodable (stdout_encoding w) (greeting (shown w name) +:+ nl)
    then (inr tt, with_stdout w (stdout w +:+ three_lines (shown w name)))
    else (inl UnicodeEncodeError, w).
Proof.
  unfold main, bind. rewrite echo_greeting.
  destruct (encodable _ _); [|reflexivity].
  rewrite echo_template_notice, echo_tip.
  unfold with_stdout, three_lines. cbn [stdout stdout_isatty stdout_encoding stderr environ].
  now rewrite !append_assoc.
Qed.

Lemma command_run (p : Params) (w : World) :
  command p w =
    if encodable (stdout_encoding w)
                 (greeting (shown w (effective_name p)) +:+ nl)
    then (inr 0, with_stdout w (stdout w +:+ three_lines (shown w (effective_name p))))
    else (inl UnicodeEncodeError, w).
Proof.
  unfold command, bind, ret, effective_name. rewrite main_run.
  now destruct (encodable _ _).
Qed.

Lemma invoke_run (p : Params) :
  invoke p =
    if encodable Utf8 (strip_ansi (effective_name p))
    then mkResult 0 (replace_crlf (three_lines (strip_ansi (effective_name p))))
    else mkResult 1 "".
Proof.
  unfold invoke. rewrite command_run.
  change (stdout_encoding fresh_world) with Utf8.
  change (shown fresh_world (effective_name p))
    with (strip_ansi (effective_name p)).
  rewrite encodable_greeting.
  now destruct (encodable Utf8 _).
Qed.

(** *** Lines *)

Lemma has_newline_append (a b : string) :
  has_newline (a +:+ b) = has_newline a || has_newline b.
Proof.
  induction a as [|c a IH]; [reflexivity|].
  rewrite append_cons. simpl. now rewrite IH, orb_assoc.
Qed.

Lemma has_newline_greeting (name : string) :
  has_newline (greeting name) = has_newline name.
Proof.
  unfold greeting. rewrite !has_newline_append.
  change (has_newline "Hello, ") with false.
  change (has_newline "! ") with false.
  change (has_newline wave) with false.
  now rewrite !orb_false_r.
Qed.

Lemma first_line_no_newline (s : string) : has_newline (first_line s) = false.
Proof.
  induction s as [|c s IH]; [reflexivity|].
  simpl. destruct (Ascii.eqb c (ascii_of_nat 10)) eqn:E; [reflexivity|].
  simpl. now rewrite E.
Qed.

Lemma first_line_append (a rest : string) :
  has_newline a = false -> first_line (a +:+ nl +:+ rest) = a.
Proof.
  induction a as [|c a IH]; [reflexivity|].
  intros H. simpl in H. apply orb_false_iff in H as [Hc Ha].
  rewrite append_cons. simpl. now rewrite Hc, (IH Ha).
Qed.

Lemma split_lines_append (a rest : string) :
  has_newline a = false ->
  split_lines (a +:+ nl +:+ rest) = a :: split_lines rest.
Proof.
  induction a as [|c a IH]; [reflexivity|].
  intros H. simpl in H. apply orb_false_iff in H as [Hc Ha].
  rewrite append_cons. simpl. now rewrite Hc, (IH Ha).
Qed.

(** A text without a newline holds no CRLF, whatever character but a
    newline comes after it. *)
Lemma replace_crlf_before (a : string) (c : ascii) (t : string) :
  has_newline a = false -> is_lf c = false ->
  replace_crlf (a +:+ String c t) = a +:+ replace_crlf (String c t).
Proof.
  intros Ha Hc. induction a as [|x a IH]; [reflexivity|].
  simpl in Ha. apply orb_false_iff in Ha as [_ Ha].
  specialize (IH Ha). rewrite !append_cons.
  destruct a as [|y a].
  - rewrite append_nil in *.
    change (replace_crlf (String x (String c t)))
      with (if is_cr x && is_lf c then String c (replace_crlf t)
            else String x (replace_crlf (String c t))).
    now rewrite Hc, andb_false_r.
  - rewrite append_cons in *.
    change (replace_crlf (String x (String y (a +:+ String c t))))
      with (if is_cr x && is_lf y then String y (replace_crlf (a +:+ String c t))
            else String x (replace_crlf (String y (a +:+ String c t)))).
    simpl in Ha. apply orb_false_iff in Ha as [Hy _].
    unfold is_lf at 1. rewrite Hy, andb_false_r. now rewrite IH.
Qed.

(** For a name without a newline the reading back changes nothing. *)
Lemma replace_crlf_three_lines (name : string) :
  has_newline name = false ->
  replace_crlf (three_lines name) = three_lines name.
Proof.
  intros H. unfold three_lines, greeting. rewrite !append_assoc.
  rewrite <- (append_assoc "Hello, " name).
  change ("! " +:+ wave +:+ nl +:+ template_notice +:+ nl +:+ tip +:+ nl)
    with (String "!" (" " +:+ wave +:+ nl +:+ template_notice +:+ nl +:+ tip +:+ nl)).
  rewrite replace_crlf_before; [reflexivity | | reflexivity].
  now rewrite has_newline_append.
Qed.

(** The invocation with a plain name: encodable, free of ANSI
    sequences and of newlines. *)
Lemma invoke_plain (name : string) :
  encodable Utf8 name = true -> strip_ansi name = name ->
  has_newline name = false ->
  invoke (mkParams (Some name)) = mkResult 0 (three_lines name).
Proof.
  intros He Hs Hn. rewrite invoke_run.
  change (effective_name (mkParams (Some name))) with name.
  now rewrite Hs, He, replace_crlf_three_lines.
Qed.

(** [test_cli_custom_name] and [test_cli_default_greeting]. *)
Example test_cli_custom_name :
  let result := invoke (mkParams (Some "World")) in
  exit_code result = 0 /\ contains "Hello, World!" (output result) = true.
Proof. split; vm_compute; reflexivity. Qed.

Example test_cli_default_greeting :
  let result := invoke (mkParams None) in
  exit_code result = 0 /\ contains "Hello, AI!" (output result) = true.
Proof. split; vm_compute; reflexivity. Qed.

(** C1, as stated, fails on three kinds of name. For the name
    [ESC[31mred ESC[0m] the run exits with code 0 and prints the
    greeting for [red], the colour codes stripped, so the output does
    not contain [Hello, <name>!]. For a lone surrogate the greeting
    cannot be encoded: the exit code is 1 and nothing is printed. For
    [a], newline, [b] the greeting is split, so no line of the output
    contains [Hello, <name>!]. *)
Lemma main_greets_name_counterexample :
  let needle (v : string) := "Hello, " +:+ v +:+ "!" in
  let coloured := invoke (mkParams (Some red_name)) in
  let surrogate := invoke (mkParams (Some lone_surrogate)) in
  let broken := invoke (mkParams (Some ("a" +:+ nl +:+ "b"))) in
  (exit_code coloured = 0 /\
   first_line (output coloured) = greeting "red" /\
   contains (needle red_name) (output coloured) = false) /\
  (exit_code surrogate = 1 /\ output surrogate = "") /\
  (exit_code broken = 0 /\
   first_line (output broken) = "Hello, a" /\
   forallb (fun line => negb (contains (needle ("a" +:+ nl +:+ "b")) line))
           (split_lines (output broken)) = true).
Proof. repeat split; vm_compute; reflexivity. Qed.

(** C1, amended. For every name that is encodable text with no ANSI
    escape sequence and no newline, invoking the command with
    [--name] exits with code 0 and prints the three messages, the
    first line being the greeting for that name, which contains
    [Hello, <name>!]. *)
Theorem main_greets_name (v : string) :
  encodable Utf8 v = true ->
  strip_ansi v = v ->
  has_newline v = false ->
  let r := invoke (mkParams (Some v)) in
  exit_code r = 0 /\
  output r = greeting v +:+ nl +:+ template_notice +:+ nl +:+ tip +:+ nl /\
  first_line (output r) = greeting v /\
  contains ("Hello, " +:+ v +:+ "!") (first_line (output r)) = true.
Proof.
  intros He Hs Hn r. subst r. rewrite (invoke_plain v He Hs Hn).
  cbn [exit_code output]. unfold three_lines.
  rewrite first_line_append by now rewrite has_newline_greeting.
  split; [reflexivity | split; [reflexivity | split; [reflexivity|]]].
  apply greeting_contains_hello.
Qed.

(** C9. Invoked without the [--name] option, the command greets the
    default name [AI]: it behaves as with [--name AI], the first line
    of its output is the greeting for [AI], which contains
    [Hello, AI!], and the exit code is 0. *)
Theorem main_default_name :
  let r := invoke (mkParams None) in
  r = invoke (mkParams (Some "AI")) /\
  first_line (output r) = greeting "AI" /\
  contains "Hello, AI!" (first_line (output r)) = true /\
  exit_code r = 0.
Proof. repeat split; vm_compute; reflexivity. Qed.


(** One run, whatever the outcome: the text appended and the result
    are fixed by the name as the stream shows it and by the
    encoding. *)
Lemma main_outcome (name : string) (w : World) :
  (fst (main name w) = inr tt /\
   snd (main name w) = with_stdout w (stdout w +:+ three_lines (shown w name)))
  \/
  (fst (main name w) = inl UnicodeEncodeError /\ snd (main name w) = w).
Proof.
  rewrite main_run. destruct (encodable _ _); [left | right]; now split.
Qed.




End CliFacts.

(** A plain name for the greeting. *)
Lemma main_greets_name_witness :
  Cli.encodable Cli.Utf8 "World" = true /\
  Cli.strip_ansi "World" = "World" /\
  CliText.has_newline "World" = false /\
  Cli.exit_code (Cli.invoke (Cli.mkParams (Some "World"))) = 0 /\
  Cli.first_line (Cli.output (Cli.invoke (Cli.mkParams (Some "World"))))
  = Cli.greeting "World".
Proof.
  split; [reflexivity|]. split; [reflexivity|]. split; [reflexivity|].
  destruct (main_greets_name "World" eq_refl eq_refl eq_refl)
    as (Hcode & _ & Hline & _).
  split; [exact Hcode | exact Hline].
Defined.


(** ** The package stub *)

Section RoseFacts.
Import Rose.

(** C2. The package is a stub: its body defines no function and no
    class; the one constant it assigns is [__version__], bound to the
    string [0.1.0]; and its export list holds [__version__] and
    nothing else. *)
Theorem rose_is_a_version_stub :
  defined_code body = [] /\
  constants body = ["__version__"] /\
  __version__ = Some (VStr "0.1.0") /\
  __all__ = Some ["__version__"] /\
  (forall n : string,
      (exists exported, __all__ = Some exported /\ n ∈ exported)
      <-> n = "__version__").
Proof.
  assert (Hall : __all__ = Some ["__version__"]) by (vm_compute; reflexivity).
  split; [reflexivity|]. split; [reflexivity|].
  split; [vm_compute; reflexivity|]. split; [exact Hall|].
  intros n. rewrite Hall. split.
  - intros (exported & Heq & Hin). injection Heq as <-.
    now apply list_elem_of_singleton in Hin.
  - intros ->. exists ["__version__"]. split; [reflexivity|].
    now apply list_elem_of_singleton.
Qed.

End RoseFacts.

(** ** The Fit Session state machine *)

Section FitSessionFacts.
Import FitSession.

Context {Dataset Stack FitResult Failure : Type}.

Abbreviation Session := (Session Dataset Stack FitResult Failure).
Abbreviation request := (request Dataset Stack FitResult Failure).

(** A request accepted into [Fitting] leaves both inputs in place. *)
Lemma entering_fitting (s s' : Session) (r : request) :
  transition s r = inr s' ->
  is_fitting s' = true ->
  is_Some (dataset s') /\ is_Some (initial_stack s') /\
  dataset s' = dataset s /\ initial_stack s' = initial_stack s.
Proof.
  unfold transition, is_fitting.
  destruct (state s) eqn:Hst, r; try discriminate;
    try (intros [= <-]; simpl; discriminate).
  destruct (dataset s) eqn:Hd, (initial_stack s) eqn:Hk; try discriminate.
  intros [= <-] _. simpl. eauto.
Qed.

(** Without a Dataset or without an initial Stack, [StartFit] is
    turned down whatever the state. *)
Lemma start_fit_needs_inputs (s : Session) :
  dataset s = None \/ initial_stack s = None ->
  exists why, transition s StartFit = inl why.
Proof.
  intros H. unfold transition.
  destruct (state s); eauto.
  destruct H as [-> | ->]; [eauto|].
  destruct (dataset s); eauto.
Qed.

(** No request is accepted in [Failed]. *)
Lemma failed_rejects (s : Session) (r : request) :
  is_failed s = true -> transition s r = inl TransitionNotAllowed.
Proof.
  unfold is_failed, transition.
  destruct (state s); try discriminate. now destruct r.
Qed.

(** No accepted request starts from [Failed]. *)
Lemma failed_is_stuck (s s' : Session) (r : request) :
  is_failed s = true -> transition s r <> inr s'.
Proof. intros H. now rewrite (failed_rejects s r H). Qed.

(** C8. Every reachable session that is [Fitting] holds both a
    Dataset and an initial Stack; a request that would enter
    [Fitting] without one of them is rejected; and [Failed] is
    terminal: in a failed session every request is rejected, so no
    run of requests leads anywhere else. *)
Theorem fitting_guarded_failed_terminal (s : Session) :
  reachable s ->
  (is_fitting s = true ->
     is_Some (dataset s) /\ is_Some (initial_stack s)) /\
  (forall (s0 : Session),
     dataset s0 = None \/ initial_stack s0 = None ->
     exists why, transition s0 StartFit = inl why) /\
  (forall (s0 s1 : Session) (r : request),
     transition s0 r = inr s1 -> is_fitting s1 = true ->
     is_Some (dataset s0) /\ is_Some (initial_stack s0)) /\
  (is_failed s = true ->
     forall r : request, transition s r = inl TransitionNotAllowed) /\
  (is_failed s = true ->
     forall (r : request) (rs : list request),
       run s (r :: rs) = inl TransitionNotAllowed).
Proof.
  intros Hreach. split; [|split; [|split; [|split]]].
  - induction Hreach as [|s0 r s1 _ _ Hstep]; [discriminate|].
    intros Hfit. destruct (entering_fitting s0 s1 r Hstep Hfit) as (?&?&_).
    auto.
  - exact start_fit_needs_inputs.
  - intros s0 s1 r Hstep Hfit.
    destruct (entering_fitting s0 s1 r Hstep Hfit) as (Hd&Hk&Ed&Ek).
    rewrite <- Ed, <- Ek. auto.
  - intros Hf r. now apply failed_rejects.
  - intros Hf r rs. simpl. now rewrite (failed_rejects s r Hf).
Qed.

End FitSessionFacts.

(** A session driven into [Fitting] and one driven into [Failed], over
    numbered payloads. *)
Lemma fitting_guarded_failed_terminal_witness :
  let fit := FitSession.mkSession FitSession.Fitting (Some 1%nat) (Some 2%nat)
             : FitSession.Session nat nat nat nat in
  let bad := FitSession.mkSession (FitSession.Failed 9%nat) (Some 1%nat) (Some 2%nat)
             : FitSession.Session nat nat nat nat in
  FitSession.reachable fit /\
  FitSession.reachable bad /\
  (is_Some (FitSession.dataset fit) /\ is_Some (FitSession.initial_stack fit)) /\
  (forall r, FitSession.transition bad r = inl FitSession.TransitionNotAllowed).
Proof.
  intros fit bad.
  assert (Hfit : FitSession.reachable fit).
  { apply FitSession.reach_step
      with (s := FitSession.mkSession FitSession.ModelConfigured (Some 1%nat) (Some 2%nat))
           (r := FitSession.StartFit); [|reflexivity].
    apply FitSession.reach_step
      with (s := FitSession.mkSession FitSession.DataLoaded (Some 1%nat) None)
           (r := FitSession.ConfigureModel 2%nat); [|reflexivity].
    apply FitSession.reach_step
      with (s := FitSession.new_session) (r := FitSession.LoadData 1%nat);
      [apply FitSession.reach_new | reflexivity]. }
  assert (Hbad : FitSession.reachable bad).
  { apply FitSession.reach_step with (s := fit) (r := FitSession.Abort 9%nat);
      [exact Hfit | reflexivity]. }
  split; [exact Hfit|]. split; [exact Hbad|]. split.
  - exact (proj1 (fitting_guarded_failed_terminal fit Hfit) eq_refl).
  - exact (proj1 (proj2 (proj2 (proj2
             (fitting_guarded_failed_terminal bad Hbad)))) eq_refl).
Defined.

(** ** The Parameter Space Manager *)

Section ParamSpaceFacts.
Import ParamSpace.

Context {scalar : Type} (leb : scalar -> scalar -> bool).

Lemma with_value_same (p : Param scalar) : with_value p (value p) = p.
Proof. now destruct p. Qed.

(** Handing the free values back in order restores every Parameter. *)
Lemma assign_to_vector (ps : list (Param scalar)) :
  bounds_respected leb ps = true ->
  assign leb ps (value <$> List.filter free ps) = Ok ps.
Proof.
  induction ps as [|p ps IH]; [reflexivity|].
  unfold bounds_respected. simpl.
  intros [Hp Hps]%andb_true_iff.
  specialize (IH Hps). unfold fmap in *.
  destruct (free p) eqn:Hfree; simpl.
  - simpl in Hp. rewrite Hp, IH, with_value_same. reflexivity.
  - now rewrite IH.
Qed.

(** Once a write has failed the failure is kept. *)
Lemma write_err env fuel (e : error) (qs : list (Param scalar)) :
  foldl (write env fuel) (Err e) qs = Err e.
Proof. induction qs as [|q qs IH]; [reflexivity | exact IH]. Qed.

(** When every Parameter resolves, the rebuild yields a Stack. *)
Lemma writes_succeed env fuel (qs : list (Param scalar)) :
  forallb (fun p => bool_decide (is_Some (resolve env fuel p))) qs = true ->
  forall st, exists st', foldl (write env fuel) (Ok st) qs = Ok st'.
Proof.
  induction qs as [|q qs IH]; intros Hall st.
  - now exists st.
  - simpl in Hall. apply andb_true_iff in Hall as [Hq Hqs].
    apply bool_decide_eq_true in Hq as [x Hx].
    simpl. rewrite Hx. apply (IH Hqs).
Qed.

(** The rebuild writes no Layer in or out: the Stack keeps its
    length. *)
Lemma writes_keep_length env fuel (qs : list (Param scalar)) :
  forall st st',
    foldl (write env fuel) (Ok st) qs = Ok st' -> length st' = length st.
Proof.
  induction qs as [|q qs IH]; intros st st'.
  - now intros [= ->].
  - simpl. destruct (resolve env fuel q) as [x|].
    + intros H. rewrite (IH _ _ H). apply length_alter.
    + now rewrite write_err.
Qed.

(** A vector entry outside its bounds is rejected. *)
Lemma assign_out_of_bounds (p : Param scalar) ps x vec :
  free p = true -> in_bounds leb p x = false ->
  assign leb (p :: ps) (x :: vec) = Err OutOfBoundsError.
Proof. intros Hf Hb. simpl. now rewrite Hf, Hb. Qed.

(** A changed vector moves the Stack; an entry beyond its upper bound
    is rejected. *)
Example demo_from_vector :
  from_vector Z.leb demo [130; 5] =
    Ok [ mkLayer 0 0 0 0; mkLayer 130 5 0 7; mkLayer 0 2 0 7 ] /\
  from_vector Z.leb demo [230; 5] = Err OutOfBoundsError.
Proof. split; vm_compute; reflexivity. Qed.

(** C3. For every valid configuration (free values within their
    bounds, ties resolving), [from_vector] applied to [to_vector()]
    succeeds and gives the very Stack of the manager, Layer for Layer
    and value for value. *)
Theorem from_vector_to_vector (m : Manager scalar) :
  valid leb m = true ->
  exists st : Stack scalar,
    stack m = Ok st /\
    from_vector leb m (to_vector m) = Ok st /\
    length st = length (layers m).
Proof.
  unfold valid. intros [Hb Ht]%andb_true_iff.
  destruct (writes_succeed _ _ _ Ht (layers m)) as [st Hst].
  exists st. split; [exact Hst|]. split.
  - unfold from_vector, to_vector. rewrite (assign_to_vector _ Hb).
    exact Hst.
  - exact (writes_keep_length _ _ _ _ _ Hst).
Qed.

End ParamSpaceFacts.

(** The round trip on the three-layer film. *)
Lemma from_vector_to_vector_witness :
  ParamSpace.valid Z.leb ParamSpace.demo = true /\
  exists st,
    ParamSpace.stack ParamSpace.demo = ParamSpace.Ok st /\
    ParamSpace.from_vector Z.leb ParamSpace.demo
      (ParamSpace.to_vector ParamSpace.demo) = ParamSpace.Ok st /\
    length st = length (ParamSpace.layers ParamSpace.demo).
Proof.
  split; [vm_compute; reflexivity|].
  apply (from_vector_to_vector Z.leb ParamSpace.demo).
  vm_compute; reflexivity.
Defined.

(** ** More on the command-line tool *)

Section CliTextFacts.
Import Cli CliText.

Lemma append_inv_head (a x y : string) : a +:+ x = a +:+ y -> x = y.
Proof.
  induction a as [|c a IH]; [trivial|].
  rewrite !append_cons. intros [= H]. auto.
Qed.

Lemma length_append (a b : string) :
  String.length (a +:+ b) = (String.length a + String.length b)%nat.
Proof.
  induction a as [|c a IH]; [reflexivity|].
  rewrite append_cons. simpl. now rewrite IH.
Qed.

Lemma append_inv_tail (a b s : string) : a +:+ s = b +:+ s -> a = b.
Proof.
  revert b. induction a as [|c a IH]; intros [|d b] H.
  - reflexivity.
  - apply (f_equal String.length) in H.
    rewrite append_nil, append_cons in H. simpl in H.
    rewrite length_append in H. lia.
  - apply (f_equal String.length) in H.
    rewrite append_nil, append_cons in H. simpl in H.
    rewrite length_append in H. lia.
  - rewrite !append_cons in H. injection H as -> H.
    now rewrite (IH b H).
Qed.

(** The greeting is read back to one name only, and so are the three
    messages. *)
Lemma greeting_inj (a b : string) : greeting a = greeting b -> a = b.
Proof.
  unfold greeting. intros H.
  apply append_inv_head in H. now apply append_inv_tail in H.
Qed.

Lemma three_lines_inj (a b : string) : three_lines a = three_lines b -> a = b.
Proof.
  unfold three_lines. intros H.
  apply append_inv_tail in H. now apply greeting_inj.
Qed.

(** The output of an invocation whose name, given or default, is
    plain. *)
Lemma output_plain (p : Params) :
  encodable Utf8 (effective_name p) = true ->
  strip_ansi (effective_name p) = effective_name p ->
  has_newline (effective_name p) = false ->
  invoke p = mkResult 0 (three_lines (effective_name p)).
Proof.
  intros He Hs Hn. rewrite invoke_run.
  now rewrite Hs, He, replace_crlf_three_lines.
Qed.

Lemma prefix_split (n h : string) :
  String.prefix n h = true -> exists after, h = n +:+ after.
Proof.
  revert h. induction n as [|y n IH]; intros h H.
  - now exists h.
  - destruct h as [|x h]; [discriminate|]. simpl in H.
    destruct (ascii_dec y x) as [->|]; [|discriminate].
    destruct (IH h H) as [after ->]. now exists after.
Qed.

(** X1. For a name that is encodable text without ANSI sequences, the
    first line of the output is the whole greeting exactly when the
    name holds no newline; a newline in the name breaks the greeting
    over several lines. *)
Theorem first_line_is_greeting (name : string) :
  encodable Utf8 name = true ->
  strip_ansi name = name ->
  first_line (output (invoke (mkParams (Some name)))) = greeting name
  <-> has_newline name = false.
Proof.
  intros He Hs. split.
  - intros H. rewrite <- has_newline_greeting, <- H.
    apply first_line_no_newline.
  - intros Hn. rewrite (invoke_plain name He Hs Hn). cbn [output].
    unfold three_lines. apply first_line_append.
    now rewrite has_newline_greeting.
Qed.

(** X2. Among plain names (encodable, without ANSI sequences or
    newlines) the output tells the name: two invocations print the
    same output exactly when the names the callback received, given
    or default, are the same. *)
Theorem output_determines_name (p q : Params) :
  encodable Utf8 (effective_name p) = true ->
  strip_ansi (effective_name p) = effective_name p ->
  has_newline (effective_name p) = false ->
  encodable Utf8 (effective_name q) = true ->
  strip_ansi (effective_name q) = effective_name q ->
  has_newline (effective_name q) = false ->
  output (invoke p) = output (invoke q)
  <-> effective_name p = effective_name q.
Proof.
  intros Hep Hsp Hnp Heq Hsq Hnq.
  rewrite (output_plain p Hep Hsp Hnp), (output_plain q Heq Hsq Hnq).
  cbn [output]. split; [apply three_lines_inj | now intros ->].
Qed.

(** X3. The default applies only when the option is absent: for a
    plain name [v], an invocation with [--name v] prints what the
    bare invocation prints exactly when [v] is [AI]; an empty name is
    greeted as it is. *)
Theorem default_only_when_absent (v : string) :
  encodable Utf8 v = true ->
  strip_ansi v = v ->
  has_newline v = false ->
  output (invoke (mkParams (Some v))) = output (invoke (mkParams None))
  <-> v = "AI".
Proof.
  intros He Hs Hn.
  rewrite (output_plain (mkParams (Some v)) He Hs Hn).
  rewrite (output_plain (mkParams None) eq_refl eq_refl eq_refl).
  cbn [output]. split; [apply three_lines_inj | now intros ->].
Qed.

(** X4. For a plain name the output is four lines, each closed by a
    newline: the greeting, an empty line, the template notice and the
    tip. *)
Theorem output_lines (name : string) :
  encodable Utf8 name = true ->
  strip_ansi name = name ->
  has_newline name = false ->
  split_lines (output (invoke (mkParams (Some name)))) =
    [ greeting name;
      "";
      "This is a template CLI. Replace it with your own commands!";
      "Tip: Ask Copilot to help you add functionality here.";
      "" ].
Proof.
  intros He Hs Hn. rewrite (invoke_plain name He Hs Hn). cbn [output].
  unfold three_lines.
  rewrite split_lines_append by now rewrite has_newline_greeting.
  reflexivity.
Qed.

(** X5. Under the test runner, for every name: the exit code is 0
    exactly when the name, its ANSI sequences stripped, can be encoded
    in UTF-8; the output is then the three messages for the stripped
    name, every CRLF read back as LF; otherwise the exit code is 1 and
    the output is empty. *)
Theorem invoke_strips_and_folds (name : string) :
  let r := invoke (mkParams (Some name)) in
  (exit_code r = 0 <-> encodable Utf8 (strip_ansi name) = true) /\
  (encodable Utf8 (strip_ansi name) = true ->
     output r = replace_crlf (three_lines (strip_ansi name))) /\
  (encodable Utf8 (strip_ansi name) = false -> r = mkResult 1 "").
Proof.
  intros r. subst r. rewrite invoke_run.
  change (effective_name (mkParams (Some name))) with name.
  destruct (encodable Utf8 (strip_ansi name)); cbn [exit_code output].
  - split; [now split|]. split; [reflexivity | discriminate].
  - split; [split; discriminate|]. split; [discriminate | reflexivity].
Qed.

(** X6. The substring test of the assertions ([needle in haystack]) is
    true exactly when the haystack is some text, then the needle, then
    some text. *)
Theorem contains_iff_infix (needle haystack : string) :
  contains needle haystack = true
  <-> exists before after, haystack = before +:+ needle +:+ after.
Proof.
  split.
  - induction haystack as [|x h IH]; intros H.
    + change (String.prefix needle "" || false = true) in H.
      rewrite orb_false_r in H. destruct (prefix_split _ _ H) as [after E].
      now exists "", after.
    + change (String.prefix needle (String x h) || contains needle h = true)
        in H.
      apply orb_true_iff in H as [H|H].
      * destruct (prefix_split _ _ H) as [after E]. now exists "", after.
      * destruct (IH H) as (before & after & ->).
        now exists (String x before), after.
  - intros (before & after & ->).
    apply contains_after, contains_prefix, prefix_append.
Qed.


(** X9. On a UTF-8 terminal nothing is stripped: every encodable name
    is written as it is, ANSI sequences included, in the three
    messages after what stdout held. *)
Theorem terminal_writes_verbatim (name : string) (w : World) :
  stdout_isatty w = true ->
  stdout_encoding w = Utf8 ->
  encodable Utf8 name = true ->
  main name w = (inr tt, with_stdout w (stdout w +:+ three_lines name)).
Proof.
  intros Htty Henc He. rewrite main_run.
  unfold shown, should_strip_ansi. rewrite Htty, Henc. cbn [negb].
  now rewrite encodable_greeting, He.
Qed.

End CliTextFacts.

(** The first line for [World]. *)
Lemma first_line_is_greeting_witness :
  Cli.encodable Cli.Utf8 "World" = true /\
  Cli.strip_ansi "World" = "World" /\
  (Cli.first_line (Cli.output (Cli.invoke (Cli.mkParams (Some "World"))))
   = Cli.greeting "World"
   <-> CliText.has_newline "World" = false).
Proof.
  split; [reflexivity|]. split; [reflexivity|].
  apply (first_line_is_greeting "World"); reflexivity.
Defined.

(** [World] against the default name. *)
Lemma output_determines_name_witness :
  Cli.output (Cli.invoke (Cli.mkParams (Some "World")))
  = Cli.output (Cli.invoke (Cli.mkParams None))
  <-> "World" = "AI".
Proof.
  apply (output_determines_name (Cli.mkParams (Some "World"))
           (Cli.mkParams None)); reflexivity.
Defined.

(** The empty name is not the default. *)
Lemma default_only_when_absent_witness :
  Cli.encodable Cli.Utf8 "" = true /\
  Cli.strip_ansi "" = "" /\
  CliText.has_newline "" = false /\
  Cli.output (Cli.invoke (Cli.mkParams (Some "")))
  <> Cli.output (Cli.invoke (Cli.mkParams None)).
Proof.
  split; [reflexivity|]. split; [reflexivity|]. split; [reflexivity|].
  intros H.
  apply (default_only_when_absent "" eq_refl eq_refl eq_refl) in H.
  discriminate H.
Defined.

(** The four lines printed for [World]. *)
Lemma output_lines_witness :
  CliText.has_newline "World" = false /\
  CliText.split_lines (Cli.output (Cli.invoke (Cli.mkParams (Some "World")))) =
    [ Cli.greeting "World";
      "";
      "This is a template CLI. Replace it with your own commands!";
      "Tip: Ask Copilot to help you add functionality here.";
      "" ].
Proof.
  split; [reflexivity|].
  apply (output_lines "World"); reflexivity.
Defined.


(** The coloured name on a terminal. *)
Lemma terminal_writes_verbatim_witness :
  Cli.stdout_isatty CliText.terminal = true /\
  Cli.encodable Cli.Utf8 CliText.red_name = true /\
  Cli.stdout (snd (Cli.main CliText.red_name CliText.terminal))
  = "$ " +:+ CliText.three_lines CliText.red_name.
Proof.
  split; [reflexivity|]. split; [reflexivity|].
  rewrite (terminal_writes_verbatim CliText.red_name CliText.terminal
             eq_refl eq_refl eq_refl).
  reflexivity.
Defined.
